(** * QCAR::EyewearUserCalibrator

    A model of [build/include/QCAR/EyewearUserCalibrator.h].

    The header declares one abstract class and nothing else: six pure
    virtual member functions, no data members and no function bodies.
    The development therefore has two layers.

    - The declaration itself, as a table of member declarations
      ([EyewearUserCalibrator_decl]): names, return types, parameters,
      qualifiers.  Statements about what the interface consists of are
      statements about this table.
    - The meaning of the declaration, as a type class
      ([EyewearUserCalibrator]) whose instances are the implementations
      of the interface over some state type.  The repository holds no
      implementation, so this layer only serves to show what the
      declaration leaves to an implementation. *)

From Stdlib Require Import ZArith List String Bool Lia.
From Stdlib Require Import Floats.SpecFloat.
Import ListNotations.
Open Scope string_scope.
Open Scope list_scope.

Module QCAR.

(** ** The declaration *)

(** Member access, [public:] on line 59 and [private] on line 57. *)
Inductive Access : Type := Public | Protected | Private.

(** The types that occur in the six signatures. *)
Inductive CType : Type :=
| CBool
| CInt
| CFloat
| CEyewearCalibrationReading
| CMatrix44F.

(** How a parameter is passed: [T x], [T x[]] or [T& x]. *)
Inductive Passing : Type := ByValue | ByArray | ByReference.

Record Param : Type := mkParam
  { p_type : CType;
    p_pass : Passing;
    p_name : string }.

Record MethodDecl : Type := mkMethodDecl
  { m_access  : Access;
    m_virtual : bool;
    m_ret     : CType;
    m_name    : string;
    m_params  : list Param;
    m_const   : bool;      (* trailing [const] *)
    m_pure    : bool }.    (* trailing [= 0] *)

Record ClassDecl : Type := mkClassDecl
  { c_name    : string;
    c_bases   : list (Access * string);
    c_members : list MethodDecl }.

(** The member functions, in declaration order. *)
Inductive Method : Type :=
| M_init
| M_getMinScaleHint
| M_getMaxScaleHint
| M_getDrawingAspectRatio
| M_isStereoStretched
| M_getProjectionMatrix.

Definition int_param (n : string) : Param := mkParam CInt ByValue n.

(** Lines 73-74, 86, 97, 109, 120 and 134-135 of the header. *)
Definition decl (m : Method) : MethodDecl :=
  match m with
  | M_init =>
      mkMethodDecl Public true CBool "init"
        [int_param "surfaceWidth"; int_param "surfaceHeight";
         int_param "targetWidth";  int_param "targetHeight"]
        false true
  | M_getMinScaleHint =>
      mkMethodDecl Public true CFloat "getMinScaleHint" [] false true
  | M_getMaxScaleHint =>
      mkMethodDecl Public true CFloat "getMaxScaleHint" [] false true
  | M_getDrawingAspectRatio =>
      mkMethodDecl Public true CFloat "getDrawingAspectRatio"
        [int_param "surfaceWidth"; int_param "surfaceHeight"]
        true true
  | M_isStereoStretched =>
      mkMethodDecl Public true CBool "isStereoStretched" [] false true
  | M_getProjectionMatrix =>
      mkMethodDecl Public true CBool "getProjectionMatrix"
        [mkParam CEyewearCalibrationReading ByArray "reading";
         int_param "numReadings";
         mkParam CMatrix44F ByReference "calibrationResult"]
        false true
  end.

Definition all_methods : list Method :=
  [M_init; M_getMinScaleHint; M_getMaxScaleHint;
   M_getDrawingAspectRatio; M_isStereoStretched; M_getProjectionMatrix].

(** [class QCAR_API EyewearUserCalibrator : private NonCopyable { ... }] *)
Definition EyewearUserCalibrator_decl : ClassDecl :=
  mkClassDecl "EyewearUserCalibrator"
              [(Private, "NonCopyable")]
              (map decl all_methods).

(** The virtual dispatch table: one slot per virtual member function. *)
Definition vtable (c : ClassDecl) : list MethodDecl :=
  filter m_virtual (c_members c).

Definition is_abstract_operation (d : MethodDecl) : bool :=
  m_virtual d && m_pure d.

Definition is_public (d : MethodDecl) : bool :=
  match m_access d with Public => true | _ => false end.

(** ** The meaning of the declaration *)

(** C++ [int].  The header passes these values on and does no arithmetic
    on them, so no wrap-around occurs in this file. *)
Definition int : Type := Z.

(** C++ [float]: an IEEE 754 value, as sign, mantissa and exponent. *)
Definition float : Type := spec_float.

Definition float_zero : float := S754_zero false.
Definition float_one  : float := S754_finite false 8388608 (-23).
Definition float_two  : float := S754_finite false 8388608 (-22).

(** The range that the comments on lines 84 and 95 document for the two
    scale hints, [0.0 - 1.0], both ends included. *)
Definition in_unit_range (f : float) : bool :=
  SFleb float_zero f && SFleb f float_one.

(** How a call of a member function ends.  None of the six declarations
    carries an exception specification, so a call either returns its
    result or throws; the object is left in some state in both cases. *)
Inductive Outcome (A St : Type) : Type :=
| Returns (a : A) (s : St)
| Throws (s : St).

Arguments Returns {A St}.
Arguments Throws {A St}.

Definition state_after {A St : Type} (o : Outcome A St) : St :=
  match o with
  | Returns _ s => s
  | Throws s => s
  end.

Definition returned {A St : Type} (o : Outcome A St) : option A :=
  match o with
  | Returns a _ => Some a
  | Throws _ => None
  end.

Section Interface.

(** [EyewearCalibrationReading] and [Matrix44F] are declared in
    QCAR/EyewearCalibrationReading.h and in the headers that QCAR/QCAR.h
    brings in.  The calibrator header only names them, so they stay
    abstract here. *)
Variable EyewearCalibrationReading : Type.
Variable Matrix44F : Type.

(** An implementation of the abstract class over the calibrator state
    [St].  Every member function takes the state before the call and
    yields the state after it.  That holds for getDrawingAspectRatio as
    well: the [const] on line 109 makes the members of the object
    read-only inside the body, but state kept in [mutable] members or
    behind a pointer stays writable, so the qualifier does not fix the
    state after the call.  [reading] is an array of non-const elements
    and [calibrationResult] a non-const reference: both come back with
    the result. *)
Class EyewearUserCalibrator (St : Type) : Type :=
  { init :
      int -> int -> int -> int -> St -> Outcome bool St;
    getMinScaleHint :
      St -> Outcome float St;
    getMaxScaleHint :
      St -> Outcome float St;
    getDrawingAspectRatio :
      int -> int -> St -> Outcome float St;
    isStereoStretched :
      St -> Outcome bool St;
    getProjectionMatrix :
      list EyewearCalibrationReading -> int -> Matrix44F -> St ->
      Outcome (bool * list EyewearCalibrationReading * Matrix44F) St }.

(** *** Sample implementations

    The three below are stand-ins that exercise the interface; none of
    them is the vendor's. *)

(** Counts the calls made on it, in a counter that every member function
    may write. *)
Definition call_counter : EyewearUserCalibrator nat :=
  {| init _ _ _ _ n := Returns true (S n);
     getMinScaleHint n := Returns float_zero (S n);
     getMaxScaleHint n := Returns float_one (S n);
     getDrawingAspectRatio _ _ n := Returns float_one (S n);
     isStereoStretched n := Returns false (S n);
     getProjectionMatrix rd _ m n := Returns (false, rd, m) (S n) |}.

(** Remembers whether [init] has been called and refuses to compute a
    matrix before; its hints are 0.0 and 1.0. *)
Definition strict_calibrator : EyewearUserCalibrator bool :=
  {| init _ _ _ _ _ := Returns true true;
     getMinScaleHint ready := Returns float_zero ready;
     getMaxScaleHint ready := Returns float_one ready;
     getDrawingAspectRatio _ _ ready := Returns float_one ready;
     isStereoStretched ready := Returns false ready;
     getProjectionMatrix rd _ m ready := Returns (ready, rd, m) ready |}.

(** Keeps no state, always reports success; its hints are 2.0. *)
Definition lax_calibrator : EyewearUserCalibrator unit :=
  {| init _ _ _ _ u := Returns true u;
     getMinScaleHint u := Returns float_two u;
     getMaxScaleHint u := Returns float_two u;
     getDrawingAspectRatio _ _ u := Returns float_one u;
     isStereoStretched u := Returns true u;
     getProjectionMatrix rd _ m u := Returns (true, rd, m) u |}.

End Interface.

Arguments init {EyewearCalibrationReading Matrix44F St _}.
Arguments getMinScaleHint {EyewearCalibrationReading Matrix44F St _}.
Arguments getMaxScaleHint {EyewearCalibrationReading Matrix44F St _}.
Arguments getDrawingAspectRatio {EyewearCalibrationReading Matrix44F St _}.
Arguments isStereoStretched {EyewearCalibrationReading Matrix44F St _}.
Arguments getProjectionMatrix {EyewearCalibrationReading Matrix44F St _}.

(** A hint was returned and lies in the documented range. *)
Definition hint_in_unit_range {St : Type} (o : Outcome float St) : bool :=
  match returned o with
  | Some f => in_unit_range f
  | None => false
  end.

(** ** Facts about the declaration *)

Lemma NoDup_map_injective {A B : Type} (f : A -> B) (l : list A) :
  (forall a b, f a = f b -> a = b) -> NoDup l -> NoDup (map f l).
Proof.
  intros Hinj Hnd.
  induction Hnd as [|a l Hnotin _ IH]; simpl.
  - constructor.
  - constructor; [|exact IH].
    intros Hin. apply in_map_iff in Hin.
    destruct Hin as [b [Hfb Hb]].
    apply Hinj in Hfb. subst b. exact (Hnotin Hb).
Qed.

Lemma all_methods_complete (m : Method) : In m all_methods.
Proof.
  destruct m; simpl; tauto.
Qed.

Lemma all_methods_NoDup : NoDup all_methods.
Proof.
  unfold all_methods.
  repeat (constructor; [simpl; intuition discriminate|]).
  constructor.
Qed.

Lemma decl_injective (a b : Method) : m_name (decl a) = m_name (decl b) -> a = b.
Proof.
  destruct a, b; simpl; intros H; try reflexivity; discriminate H.
Qed.

Lemma members_are_declarations :
  c_members EyewearUserCalibrator_decl = map decl all_methods.
Proof. reflexivity. Qed.

Lemma every_member_is_a_slot :
  vtable EyewearUserCalibrator_decl = c_members EyewearUserCalibrator_decl.
Proof. reflexivity. Qed.

(** C8 (as stated): the interface has exactly five abstract operations.
    Refuted: the dispatch table of the declared class does not have five
    slots. *)
Lemma vtable_is_not_five_operations :
  List.length (vtable EyewearUserCalibrator_decl) <> 5%nat.
Proof.
  simpl. discriminate.
Qed.

(** C8 (amended): the calibration interface exposes exactly six abstract
    operations, a fixed virtual dispatch table of the six public pure
    virtual methods init, getMinScaleHint, getMaxScaleHint,
    getDrawingAspectRatio, isStereoStretched and getProjectionMatrix, with
    pairwise different names, and the class has no other member. *)
Theorem vtable_is_exactly_six_operations :
  List.length (vtable EyewearUserCalibrator_decl) = 6%nat
  /\ map m_name (vtable EyewearUserCalibrator_decl)
     = ["init"; "getMinScaleHint"; "getMaxScaleHint";
        "getDrawingAspectRatio"; "isStereoStretched"; "getProjectionMatrix"]
  /\ NoDup (map m_name (vtable EyewearUserCalibrator_decl))
  /\ Forall (fun d => is_abstract_operation d = true /\ is_public d = true)
            (vtable EyewearUserCalibrator_decl)
  /\ (forall d, In d (c_members EyewearUserCalibrator_decl) <->
                In d (vtable EyewearUserCalibrator_decl))
  /\ (forall d, In d (vtable EyewearUserCalibrator_decl) <->
                exists m : Method, d = decl m).
Proof.
  split; [reflexivity|].
  split; [reflexivity|].
  split.
  { rewrite every_member_is_a_slot, members_are_declarations.
    rewrite map_map.
    apply NoDup_map_injective.
    - intros a b. apply decl_injective.
    - apply all_methods_NoDup. }
  split.
  { rewrite every_member_is_a_slot, members_are_declarations.
    apply Forall_forall. intros d Hd.
    apply in_map_iff in Hd. destruct Hd as [m [<- _]].
    destruct m; split; reflexivity. }
  split.
  { intros d. rewrite every_member_is_a_slot. tauto. }
  intros d. rewrite every_member_is_a_slot, members_are_declarations.
  rewrite in_map_iff. split.
  - intros [m [Hm _]]. exists m. symmetry. exact Hm.
  - intros [m ->]. exists m. split; [reflexivity | apply all_methods_complete].
Qed.

(** *** Signatures *)

Lemma init_signature :
  m_ret (decl M_init) = CBool
  /\ map p_type (m_params (decl M_init)) = [CInt; CInt; CInt; CInt]
  /\ map p_pass (m_params (decl M_init)) = [ByValue; ByValue; ByValue; ByValue].
Proof. repeat split. Qed.

Lemma getProjectionMatrix_signature :
  m_ret (decl M_getProjectionMatrix) = CBool
  /\ map p_type (m_params (decl M_getProjectionMatrix))
     = [CEyewearCalibrationReading; CInt; CMatrix44F]
  /\ map p_pass (m_params (decl M_getProjectionMatrix))
     = [ByArray; ByValue; ByReference].
Proof. repeat split. Qed.

Lemma base_classes :
  c_bases EyewearUserCalibrator_decl = [(Private, "NonCopyable")].
Proof. reflexivity. Qed.

Lemma const_methods (m : Method) :
  m_const (decl m) = true <-> m = M_getDrawingAspectRatio.
Proof.
  destruct m; simpl; split; intros H; try reflexivity; discriminate H.
Qed.

(** ** What the declaration leaves to the implementation

    The header fixes six signatures.  The lemmas of this part show, on the
    sample implementations, properties that hold of one implementation of
    the interface and fail of another: the declaration does not decide
    them. *)

Section Open.
Context {EyewearCalibrationReading Matrix44F : Type}.

(** [strict_calibrator] stays unready under every member function other
    than [init]. *)
Lemma strict_unready_without_init
      (w h n : int) (rd : list EyewearCalibrationReading) (m : Matrix44F) :
  state_after (getMinScaleHint (EyewearUserCalibrator := strict_calibrator EyewearCalibrationReading Matrix44F) false) = false
  /\ state_after (getMaxScaleHint (EyewearUserCalibrator := strict_calibrator EyewearCalibrationReading Matrix44F) false) = false
  /\ state_after (getDrawingAspectRatio (EyewearUserCalibrator := strict_calibrator EyewearCalibrationReading Matrix44F) w h false) = false
  /\ state_after (isStereoStretched (EyewearUserCalibrator := strict_calibrator EyewearCalibrationReading Matrix44F) false) = false
  /\ state_after (getProjectionMatrix (EyewearUserCalibrator := strict_calibrator EyewearCalibrationReading Matrix44F) rd n m false) = false.
Proof.
  repeat split.
Qed.

(** Whether a call of getProjectionMatrix that comes before any call of
    init is refused depends on the implementation. *)
Lemma early_getProjectionMatrix_depends_on_implementation
      (rd : list EyewearCalibrationReading) (n : int) (m : Matrix44F) :
  returned (getProjectionMatrix (EyewearUserCalibrator := strict_calibrator EyewearCalibrationReading Matrix44F) rd n m false)
  = Some (false, rd, m)
  /\
  returned (getProjectionMatrix (EyewearUserCalibrator := lax_calibrator EyewearCalibrationReading Matrix44F) rd n m tt)
  = Some (true, rd, m).
Proof.
  split; reflexivity.
Qed.

(** Whether the scale hints lie in the documented range depends on the
    implementation. *)
Lemma scale_hint_range_depends_on_implementation (ready : bool) :
  (hint_in_unit_range (getMinScaleHint (EyewearUserCalibrator := strict_calibrator EyewearCalibrationReading Matrix44F) ready) = true
   /\ hint_in_unit_range (getMaxScaleHint (EyewearUserCalibrator := strict_calibrator EyewearCalibrationReading Matrix44F) ready) = true)
  /\
  (hint_in_unit_range (getMinScaleHint (EyewearUserCalibrator := lax_calibrator EyewearCalibrationReading Matrix44F) tt) = false
   /\ hint_in_unit_range (getMaxScaleHint (EyewearUserCalibrator := lax_calibrator EyewearCalibrationReading Matrix44F) tt) = false).
Proof.
  repeat split.
Qed.

(** Whether getDrawingAspectRatio leaves the calibrator state as it was
    depends on the implementation. *)
Lemma getDrawingAspectRatio_state_depends_on_implementation
      (w h : int) (ready : bool) (n : nat) :
  state_after (getDrawingAspectRatio (EyewearUserCalibrator := strict_calibrator EyewearCalibrationReading Matrix44F) w h ready) = ready
  /\
  state_after (getDrawingAspectRatio (EyewearUserCalibrator := call_counter EyewearCalibrationReading Matrix44F) w h n) <> n.
Proof.
  split.
  - reflexivity.
  - simpl. lia.
Qed.

End Open.

End QCAR.
